(** * Isherwood Developments API: the listing repository and the responder

  A shallow embedding of [main.py] and [schemas.py].

  - Text is a [string] (a sequence of bytes, UTF-8 for what is not ASCII);
    [str.lower] and [str.title] are given on ASCII letters, other bytes are
    left as they are.  The question reaches the topic detectors only
    through [lower], and every statement below about keywords is about the
    lower-cased text.
  - A Python [float] is a [spec_float] (binary64 of the Standard Library);
    the two format specifications the responder uses, [,.0f] and [.2f],
    round the exact binary value to the nearest decimal, ties to even.
  - A document of the [property] collection is a record whose optional
    keys are [option]s: [None] is what [doc.get] answers for an absent key
    or a stored null.
  - The handlers thread the database explicitly and answer a [Result]. *)

From Stdlib Require Import ZArith List String Ascii Bool Lia.
From Stdlib Require Import Numbers.DecimalString Numbers.HexadecimalString.
From Stdlib Require Import Floats.SpecFloat.
From stdpp Require Import base gmap strings list.

Local Open Scope Z_scope.

(** ** Python strings *)

Module PyStr.

Definition is_upper (c : ascii) : bool :=
  let n := N_of_ascii c in ((65 <=? n) && (n <=? 90))%N.

Definition is_lower (c : ascii) : bool :=
  let n := N_of_ascii c in ((97 <=? n) && (n <=? 122))%N.

Definition to_lower (c : ascii) : ascii :=
  if is_upper c then ascii_of_N (N_of_ascii c + 32) else c.

Definition to_upper (c : ascii) : ascii :=
  if is_lower c then ascii_of_N (N_of_ascii c - 32) else c.

(** [s.lower()] *)
Fixpoint lower (s : string) : string :=
  match s with
  | EmptyString => EmptyString
  | String c s' => String (to_lower c) (lower s')
  end.

(** [s.title()]: a cased character becomes upper case when the character
    before it is not cased, and lower case otherwise. *)
Fixpoint title_from (previous_is_cased : bool) (s : string) : string :=
  match s with
  | EmptyString => EmptyString
  | String c s' =>
      if is_lower c then
        String (if previous_is_cased then c else to_upper c) (title_from true s')
      else if is_upper c then
        String (if previous_is_cased then to_lower c else c) (title_from true s')
      else String c (title_from false s')
  end.

Definition title (s : string) : string := title_from false s.

(** [sub in s] *)
Fixpoint contains (sub s : string) : bool :=
  String.prefix sub s ||
  match s with
  | EmptyString => false
  | String _ s' => contains sub s'
  end.

Definition newline : string := String (ascii_of_N 10) EmptyString.

(** ["\n".join(lines)] *)
Definition join_lines (lines : list string) : string :=
  String.concat newline lines.

(** Truth value of a string: the empty string is false. *)
Definition truthy (s : string) : bool :=
  match s with EmptyString => false | String _ _ => true end.

(** Truth value of [x] for [x] an optional string ([None] is false). *)
Definition truthy_opt (o : option string) : bool :=
  match o with Some s => truthy s | None => false end.



End PyStr.

(** ** Python floats and their [f] presentation *)

Module PyFloat.

Definition float := spec_float.

(** The float nearest to an integer, and to a quotient of integers: what
    the literal [3.5] is, as [of_ratio 35 10]. *)
Definition of_Z (z : Z) : float := binary_normalize 53 1024 z 0 false.

Definition of_ratio (n d : Z) : float := SFdiv 53 1024 (of_Z n) (of_Z d).

(** Truth value: zero (of either sign) is false, all else is true. *)
Definition truthy (x : float) : bool :=
  match x with S754_zero _ => false | _ => true end.

Definition truthy_opt (o : option float) : bool :=
  match o with Some x => truthy x | None => false end.

(** [x >= 0], the [ge=0] constraint of the schema. *)
Definition ge0 (x : float) : bool := SFleb (S754_zero false) x.

Definition round_half_even (num den : Z) : Z :=
  let q := num / den in
  let r := num mod den in
  if 2 * r <? den then q
  else if den <? 2 * r then q + 1
  else if Z.even q then q else q + 1.

(** [m * 2^e * 10^prec] rounded to an integer. *)
Definition scaled (prec : nat) (m : positive) (e : Z) : Z :=
  let num := Zpos m * 10 ^ Z.of_nat prec in
  if 0 <=? e then num * 2 ^ e else round_half_even num (2 ^ (- e)).

Definition digits (z : Z) : string :=
  DecimalString.NilZero.string_of_uint (N.to_uint (Z.to_N z)).

(** Thousands separators, on the digits from the least significant one. *)
Fixpoint commas_rev (k : nat) (ds : list ascii) : list ascii :=
  match ds with
  | [] => []
  | d :: ds' =>
      match k with
      | 3%nat => ","%char :: d :: commas_rev 1 ds'
      | _ => d :: commas_rev (S k) ds'
      end
  end.

Definition group_thousands (s : string) : string :=
  string_of_list_ascii (rev (commas_rev 0 (rev (list_ascii_of_string s)))).

Fixpoint zeros (n : nat) : string :=
  match n with O => EmptyString | S n' => String "0" (zeros n') end.

Definition pad_left (width : nat) (s : string) : string :=
  zeros (width - String.length s) +:+ s.

(** The digits of [n / 10^prec], with a point and [prec] decimals. *)
Definition fixed (comma : bool) (prec : nat) (n : Z) : string :=
  let p := 10 ^ Z.of_nat prec in
  let ip := digits (n / p) in
  (if comma then group_thousands ip else ip) +:+
  match prec with
  | O => EmptyString
  | _ => "." +:+ pad_left prec (digits (n mod p))
  end.

Definition sign (s : bool) : string := if s then "-" else EmptyString.

(** [format(x, ",.{prec}f")] when [comma], [format(x, ".{prec}f")]
    otherwise. *)
Definition format_f (comma : bool) (prec : nat) (x : float) : string :=
  match x with
  | S754_nan => "nan"
  | S754_infinity s => sign s +:+ "inf"
  | S754_zero s => sign s +:+ fixed comma prec 0
  | S754_finite s m e => sign s +:+ fixed comma prec (scaled prec m e)
  end.

End PyFloat.

(** ** [schemas.py] *)

Module Schemas.

Import PyFloat.

(** [class Property(BaseModel)]: the fields in the order of the class.  A
    [Literal] field holds a string, which [validate] checks. *)
Record Property := {
  name : string;
  slug : string;
  summary : string;
  description : string;
  address : string;
  city : string;
  province : string;
  country : string;
  images : list string;
  category : string;
  development_type : option string;
  commercial_type : option string;
  hospitality_type : option string;
  size_sqft : option float;
  lot_acres : option float;
  year_built : option Z;
  status : string;
  price : option float;
  highlights : list string;
  coordinates : option (gmap string float)
}.

Definition one_of (literals : list string) (s : string) : bool :=
  existsb (String.eqb s) literals.

Definition optional {A} (check : A -> bool) (o : option A) : bool :=
  match o with Some a => check a | None => true end.

(** The constraints of the class: the [Literal] sets and [ge=0]. *)
Definition validate (p : Property) : bool :=
  one_of ["land"; "residential"; "commercial"; "development"; "hospitality"]
    (category p)
  && optional (one_of ["high rise"; "mid rise"; "low rise"]) (development_type p)
  && optional (one_of ["plaza"; "office"; "medical"; "industrial"]) (commercial_type p)
  && optional (one_of ["hotel"; "apartment"; "retirement"]) (hospitality_type p)
  && optional ge0 (size_sqft p)
  && optional ge0 (lot_acres p)
  && one_of ["available"; "leased"; "sold"; "under development"] (status p)
  && optional ge0 (price p).

End Schemas.

(** ** The documents of the [property] collection *)

Module Doc.

Import PyFloat.

(** The keys of a stored listing, as [doc.get(key)] answers them: [None]
    for a key that is absent or null; [highlights] and [images] are the
    empty list when absent. *)
Record Fields := {
  name : string;
  slug : string;
  summary : string;
  description : string;
  address : string;
  city : string;
  province : string;
  country : string;
  images : list string;
  category : option string;
  development_type : option string;
  commercial_type : option string;
  hospitality_type : option string;
  size_sqft : option float;
  lot_acres : option float;
  year_built : option Z;
  status : option string;
  price : option float;
  highlights : list string;
  coordinates : option (gmap string float)
}.

(** The string stored under a key, for the exact-match filters. *)
Definition get_str (d : Fields) (key : string) : option string :=
  if String.eqb key "name" then Some (name d)
  else if String.eqb key "slug" then Some (slug d)
  else if String.eqb key "summary" then Some (summary d)
  else if String.eqb key "description" then Some (description d)
  else if String.eqb key "address" then Some (address d)
  else if String.eqb key "city" then Some (city d)
  else if String.eqb key "province" then Some (province d)
  else if String.eqb key "country" then Some (country d)
  else if String.eqb key "category" then category d
  else if String.eqb key "development_type" then development_type d
  else if String.eqb key "commercial_type" then commercial_type d
  else if String.eqb key "hospitality_type" then hospitality_type d
  else if String.eqb key "status" then status d
  else None.

End Doc.

(** ** The record store *)

Module Store.

Definition ObjectId := N.

(** [str(oid)]: twenty-four hexadecimal digits. *)
Definition str (oid : ObjectId) : string :=
  PyFloat.pad_left 24
    (HexadecimalString.NilZero.string_of_uint (N.to_hex_uint oid)).

(** A document as the collection holds it. *)
Record Document := { _id : ObjectId; fields : Doc.Fields }.

(** Modelled from the spec: the database handle [db] of [database.py],
    which is not among the sources: one collection of listing documents
    in insertion order, and the identifier the next insert assigns. *)
Record Database := { property : list Document; next_id : ObjectId }.

(** Modelled from the spec: [model_dump], the document of a validated
    [Property], every field under its own key. *)
Definition model_dump (p : Schemas.Property) : Doc.Fields :=
  {| Doc.name := Schemas.name p;
     Doc.slug := Schemas.slug p;
     Doc.summary := Schemas.summary p;
     Doc.description := Schemas.description p;
     Doc.address := Schemas.address p;
     Doc.city := Schemas.city p;
     Doc.province := Schemas.province p;
     Doc.country := Schemas.country p;
     Doc.images := Schemas.images p;
     Doc.category := Some (Schemas.category p);
     Doc.development_type := Schemas.development_type p;
     Doc.commercial_type := Schemas.commercial_type p;
     Doc.hospitality_type := Schemas.hospitality_type p;
     Doc.size_sqft := Schemas.size_sqft p;
     Doc.lot_acres := Schemas.lot_acres p;
     Doc.year_built := Schemas.year_built p;
     Doc.status := Some (Schemas.status p);
     Doc.price := Schemas.price p;
     Doc.highlights := Schemas.highlights p;
     Doc.coordinates := Schemas.coordinates p |}.

(** Modelled from the spec: [create_document("property", data)] of
    [database.py], the store's insert-one: the listing is appended under
    a newly assigned id, which is returned as a string. *)
Definition create_document (db : Database) (data : Schemas.Property)
  : string * Database :=
  let oid := next_id db in
  (str oid,
   {| property := property db ++ [ {| _id := oid; fields := model_dump data |} ];
      next_id := N.succ oid |}).

(** Modelled from the spec: [db["property"].find_one({"slug": slug})], the
    first document with that slug, if any. *)
Definition find_one (db : Database) (slug : string) : option Document :=
  List.find (fun d => String.eqb (Doc.slug (fields d)) slug) (property db).

(** Modelled from the spec: [db["property"].count_documents({})]. *)
Definition count_documents (db : Database) : Z :=
  Z.of_nat (length (property db)).

(** A document matches a query when it holds, under every key of the
    query, the value the query has there. *)
Definition matches (query : gmap string string) (d : Document) : bool :=
  bool_decide (map_Forall (fun k v => Doc.get_str (fields d) k = Some v) query).

(** Modelled from the spec: [get_documents("property", query, limit)] of
    [database.py], the store's filtered find: up to [limit] documents
    that match, in the collection's order. *)
Definition get_documents (db : Database) (query : gmap string string)
    (limit : Z) : list Document :=
  take (Z.to_nat limit) (List.filter (matches query) (property db)).

End Store.

(** ** [main.py] *)

Module Main.

Import PyStr Store.

(** What a handler answers: a body, or [raise HTTPException(...)]. *)
Inductive Result (A : Type) : Type :=
| Ok (body : A)
| HTTPException (status_code : Z) (detail : string).

Arguments Ok {A} body.
Arguments HTTPException {A} status_code detail.

(** A listing as the API returns it: the document without [_id], with the
    string [id] in its place. *)
Record Listing := { id : string; listing : Doc.Fields }.

(** [p["id"] = str(p.pop("_id"))] *)
Definition pop_id (p : Document) : Listing :=
  {| id := str (_id p); listing := fields p |}.

(** [if value: query[key] = value] *)
Definition put_if (key : string) (value : option string)
    (query : gmap string string) : gmap string string :=
  match value with
  | Some v => if truthy v then <[key := v]> query else query
  | None => query
  end.

(** The query [list_properties] builds from its six filters. *)
Definition list_query
    (category development_type commercial_type hospitality_type city status
       : option string) : gmap string string :=
  let query : gmap string string := ∅ in
  let query := put_if "category" category query in
  let query := put_if "development_type" development_type query in
  let query := put_if "commercial_type" commercial_type query in
  let query := put_if "hospitality_type" hospitality_type query in
  let query := put_if "city" city query in
  let query := put_if "status" status query in
  query.

(** [GET /properties] *)
Definition list_properties (db : Database)
    (category development_type commercial_type hospitality_type city status
       : option string) (limit : Z) : list Listing :=
  let query :=
    list_query category development_type commercial_type hospitality_type
      city status in
  let props := get_documents db query limit in
  List.map pop_id props.

(** [GET /properties/{slug}] *)
Definition get_property (db : Database) (slug : string) : Result Listing :=
  match find_one db slug with
  | None => HTTPException 404 "Property not found"
  | Some doc => Ok (pop_id doc)
  end.

(** [POST /properties]; the payload has passed the validation of the
    schema.  The answer is the body [{"id": inserted_id}]. *)
Definition create_property (db : Database) (payload : Schemas.Property)
  : Result string * Database :=
  let existing := find_one db (Schemas.slug payload) in
  match existing with
  | Some _ => (HTTPException 400 "Slug already exists", db)
  | None =>
      let '(inserted_id, db) := create_document db payload in
      (Ok inserted_id, db)
  end.

Record ChatRequest := { message : option string }.

(** [x or ""] *)
Definition or_empty (x : option string) : string :=
  match x with
  | Some s => if truthy s then s else EmptyString
  | None => EmptyString
  end.

Definition price_keywords (q : string) : bool :=
  contains "price" q || contains "cost" q || contains "listing" q.

Definition size_keywords (q : string) : bool :=
  contains "size" q || contains "square" q || contains "sqft" q.

Definition zoning_keywords (q : string) : bool :=
  contains "zoning" q || contains "use" q || contains "type" q.

Definition status_keywords (q : string) : bool :=
  contains "status" q || contains "available" q.

Definition any_keyword (q : string) : bool :=
  existsb (fun keyword => contains keyword q)
    ["price"; "cost"; "listing"; "size"; "square"; "sqft"; "zoning"; "use";
     "type"; "status"; "available"].

(** [if value: parts.append(value.title())] *)
Definition append_title (value : option string) (parts : list string)
  : list string :=
  match value with
  | Some v => if truthy v then parts ++ [title v] else parts
  | None => parts
  end.

(** The responder: the lines of the answer, from the document found and the
    request.  [lines] is the list the handler appends to. *)
Definition responder_lines (doc : Document) (body : ChatRequest)
  : list string :=
  let name := Doc.name (fields doc) in
  let category := Doc.category (fields doc) in
  let city := Doc.city (fields doc) in
  let status := Doc.status (fields doc) in
  let price := Doc.price (fields doc) in
  let size := Doc.size_sqft (fields doc) in
  let acres := Doc.lot_acres (fields doc) in
  let dev := Doc.development_type (fields doc) in
  let comm := Doc.commercial_type (fields doc) in
  let hosp := Doc.hospitality_type (fields doc) in
  let highlights := Doc.highlights (fields doc) in
  let q := lower (or_empty (message body)) in
  let lines : list string := [] in
  let lines :=
    lines ++ ["You're asking about " +:+ name +:+ " in " +:+ city
              +:+ ". Here's what I can share:"] in
  let lines :=
    if price_keywords q then
      match price with
      | Some price =>
          lines ++ ["- Current guidance price is $"
                    +:+ PyFloat.format_f true 0 price +:+ "."]
      | None => lines ++ ["- Pricing is available upon request."]
      end
    else lines in
  let lines :=
    if size_keywords q then
      let lines :=
        match size with
        | Some size =>
            if PyFloat.truthy size then
              lines ++ ["- Interior size is approx. "
                        +:+ PyFloat.format_f true 0 size +:+ " sq ft."]
            else lines
        | None => lines
        end in
      let lines :=
        match acres with
        | Some acres =>
            if PyFloat.truthy acres then
              lines ++ ["- Lot size is approx. "
                        +:+ PyFloat.format_f false 2 acres +:+ " acres."]
            else lines
        | None => lines
        end in
      lines
    else lines in
  let lines :=
    if zoning_keywords q then
      let parts : list string := [] in
      let parts := append_title category parts in
      let parts := append_title dev parts in
      let parts := append_title comm parts in
      let parts := append_title hosp parts in
      match parts with
      | [] => lines
      | _ :: _ => lines ++ ["- Property type: " +:+ String.concat ", " parts]
      end
    else lines in
  let lines :=
    if status_keywords q then
      lines ++ ["- Status: "
                +:+ (if truthy_opt status then title (default EmptyString status)
                     else "Available")]
    else lines in
  let lines :=
    if negb (any_keyword q) then
      let lines :=
        match highlights with
        | _ :: _ =>
            let lines := lines ++ ["Key highlights:"] in
            fold_left (fun lines h => lines ++ ["  • " +:+ h])
              (take 5 highlights) lines
        | [] => lines
        end in
      let lines :=
        match highlights with
        | [] =>
            lines ++ ["Let me know if you'd like details on price, size, zoning, or availability."]
        | _ :: _ => lines
        end in
      lines
    else lines in
  lines.

(** The answer text: the lines joined by newlines. *)
Definition responder (doc : Document) (body : ChatRequest) : string :=
  let answer := join_lines (responder_lines doc body) in
  answer.

(** [POST /properties/{slug}/chat]; the answer is the body
    [{"reply": answer}], and the database is handed back as it is after the
    call. *)
Definition chat_about_property (db : Database) (slug : string)
    (body : ChatRequest) : Result string * Database :=
  match find_one db slug with
  | None => (HTTPException 404 "Property not found", db)
  | Some doc => (Ok (responder doc body), db)
  end.

(** The four sample listings of [seed_demo], in the order of the list. *)
Definition isherwood_plaza : Schemas.Property :=
  {| Schemas.name := "Isherwood Plaza";
     Schemas.slug := "isherwood-plaza";
     Schemas.summary := "Modern retail plaza with excellent frontage";
     Schemas.description :=
       "A high-visibility retail plaza with ample parking and strong tenant mix.";
     Schemas.address := "123 Main St";
     Schemas.city := "Cambridge";
     Schemas.province := "ON";
     Schemas.country := "Canada";
     Schemas.images := [];
     Schemas.category := "commercial";
     Schemas.development_type := None;
     Schemas.commercial_type := Some "plaza";
     Schemas.hospitality_type := None;
     Schemas.size_sqft := Some (PyFloat.of_Z 45000);
     Schemas.lot_acres := Some (PyFloat.of_ratio 35 10);
     Schemas.year_built := Some 2010;
     Schemas.status := "available";
     Schemas.price := Some (PyFloat.of_Z 12500000);
     Schemas.highlights :=
       ["Prime corner exposure"; "Ample surface parking"; "Strong traffic counts"];
     Schemas.coordinates := None |}.

Definition riverside_towers : Schemas.Property :=
  {| Schemas.name := "Riverside Towers";
     Schemas.slug := "riverside-towers";
     Schemas.summary := "Waterfront high-rise residential development";
     Schemas.description :=
       "Proposed twin-tower high rise with panoramic river views.";
     Schemas.address := "500 Riverside Dr";
     Schemas.city := "Kitchener";
     Schemas.province := "ON";
     Schemas.country := "Canada";
     Schemas.images := [];
     Schemas.category := "development";
     Schemas.development_type := Some "high rise";
     Schemas.commercial_type := None;
     Schemas.hospitality_type := None;
     Schemas.size_sqft := None;
     Schemas.lot_acres := Some (PyFloat.of_ratio 22 10);
     Schemas.year_built := None;
     Schemas.status := "under development";
     Schemas.price := None;
     Schemas.highlights :=
       ["Waterfront location"; "Transit adjacent"; "Zoning in progress"];
     Schemas.coordinates := None |}.

Definition isherwood_industrial_park : Schemas.Property :=
  {| Schemas.name := "Isherwood Industrial Park";
     Schemas.slug := "isherwood-industrial-park";
     Schemas.summary := "Modern industrial bays with clear heights";
     Schemas.description :=
       "Flex industrial with loading docks and ample marshalling.";
     Schemas.address := "200 Industry Rd";
     Schemas.city := "Guelph";
     Schemas.province := "ON";
     Schemas.country := "Canada";
     Schemas.images := [];
     Schemas.category := "commercial";
     Schemas.development_type := None;
     Schemas.commercial_type := Some "industrial";
     Schemas.hospitality_type := None;
     Schemas.size_sqft := Some (PyFloat.of_Z 120000);
     Schemas.lot_acres := Some (PyFloat.of_Z 8);
     Schemas.year_built := None;
     Schemas.status := "available";
     Schemas.price := Some (PyFloat.of_Z 28900000);
     Schemas.highlights :=
       ["32' clear height"; "ESFR sprinklers"; "Multiple dock doors"];
     Schemas.coordinates := None |}.

Definition grandview_retirement_residence : Schemas.Property :=
  {| Schemas.name := "Grandview Retirement Residence";
     Schemas.slug := "grandview-retirement-residence";
     Schemas.summary := "Thoughtfully designed retirement community";
     Schemas.description :=
       "A full-service retirement home with wellness amenities.";
     Schemas.address := "88 Grandview Ave";
     Schemas.city := "Waterloo";
     Schemas.province := "ON";
     Schemas.country := "Canada";
     Schemas.images := [];
     Schemas.category := "hospitality";
     Schemas.development_type := None;
     Schemas.commercial_type := None;
     Schemas.hospitality_type := Some "retirement";
     Schemas.size_sqft := None;
     Schemas.lot_acres := None;
     Schemas.year_built := None;
     Schemas.status := "available";
     Schemas.price := None;
     Schemas.highlights :=
       ["On-site healthcare"; "Chef-led dining"; "Landscaped courtyards"];
     Schemas.coordinates := None |}.

Definition samples : list Schemas.Property :=
  [isherwood_plaza; riverside_towers; isherwood_industrial_park;
   grandview_retirement_residence].

Record SeedReply := { seed_message : string; count : Z }.

(** [POST /seed] *)
Definition seed_demo (db : Database) : SeedReply * Database :=
  let count := count_documents db in
  if 0 <? count then
    ({| seed_message := "Collection already seeded"; count := count |}, db)
  else
    let db := fold_left (fun db p => snd (create_document db p)) samples db in
    ({| seed_message := "Seeded demo properties";
        count := Z.of_nat (length samples) |}, db).

End Main.

(** ** The topics of the responder, as the specification words them

    What each topic contributes to the answer, one definition per topic;
    [responder_lines_topics] below compares them with [responder_lines],
    which follows the handler line by line. *)

Module Topics.

Import PyStr Store Main.

Definition opening_line (doc : Document) : string :=
  "You're asking about " +:+ Doc.name (fields doc) +:+ " in "
  +:+ Doc.city (fields doc) +:+ ". Here's what I can share:".

Definition price_line (doc : Document) : string :=
  match Doc.price (fields doc) with
  | Some price =>
      "- Current guidance price is $" +:+ PyFloat.format_f true 0 price +:+ "."
  | None => "- Pricing is available upon request."
  end.

Definition interior_line (size : PyFloat.float) : string :=
  "- Interior size is approx. " +:+ PyFloat.format_f true 0 size +:+ " sq ft.".

Definition lot_line (acres : PyFloat.float) : string :=
  "- Lot size is approx. " +:+ PyFloat.format_f false 2 acres +:+ " acres.".

(** The line of a measure that is present and not zero. *)
Definition measure_lines (line : PyFloat.float -> string)
    (value : option PyFloat.float) : list string :=
  match value with
  | Some x => if PyFloat.truthy x then [line x] else []
  | None => []
  end.

Definition size_lines (doc : Document) : list string :=
  measure_lines interior_line (Doc.size_sqft (fields doc))
  ++ measure_lines lot_line (Doc.lot_acres (fields doc)).

(** The value of a classification key that is not empty, title-cased. *)
Definition titled (value : option string) : list string :=
  match value with
  | Some (String c s) => [title (String c s)]
  | _ => []
  end.

(** The four classification keys, in the fixed order. *)
Definition type_parts (doc : Document) : list string :=
  titled (Doc.category (fields doc))
  ++ titled (Doc.development_type (fields doc))
  ++ titled (Doc.commercial_type (fields doc))
  ++ titled (Doc.hospitality_type (fields doc)).

Definition zoning_lines (doc : Document) : list string :=
  match type_parts doc with
  | [] => []
  | _ :: _ => ["- Property type: " +:+ String.concat ", " (type_parts doc)]
  end.

(** What the status line shows. *)
Definition status_shown (doc : Document) : string :=
  match Doc.status (fields doc) with
  | Some status => if truthy status then title status else "Available"
  | None => "Available"
  end.

Definition status_line (doc : Document) : string :=
  "- Status: " +:+ status_shown doc.

Definition highlights_header : string := "Key highlights:".

Definition bullet (h : string) : string := "  • " +:+ h.

Definition fallback_prompt : string :=
  "Let me know if you'd like details on price, size, zoning, or availability.".

Definition fallback_lines (doc : Document) : list string :=
  match Doc.highlights (fields doc) with
  | [] => [fallback_prompt]
  | _ :: _ =>
      highlights_header
      :: List.map bullet (take 5 (Doc.highlights (fields doc)))
  end.

(** A line of the Size topic, and the line of the Status topic, by the
    words they start with. *)
Definition is_size_line (l : string) : bool :=
  String.prefix "- Interior size" l || String.prefix "- Lot size" l.






(** A filter given as the empty string, read as a filter not given. *)
Definition unset (value : option string) : option string :=
  match value with
  | Some EmptyString => None
  | _ => value
  end.

End Topics.

(** ** Sample data for the examples *)

Module Samples.

Import Store Main.

Definition empty_db : Database := {| property := []; next_id := 0%N |}.

(** The database after [seed_demo] on the empty one. *)
Definition seeded_db : Database := snd (seed_demo empty_db).

(** Two of its documents. *)
Definition plaza : Document :=
  {| _id := 0%N; fields := model_dump isherwood_plaza |}.

Definition grandview : Document :=
  {| _id := 3%N; fields := model_dump grandview_retirement_residence |}.

Definition ask (question : string) : ChatRequest :=
  {| message := Some question |}.

(** A listing of bare land whose lot size is recorded as zero. *)
Definition corner_parcel : Schemas.Property :=
  {| Schemas.name := "Corner Parcel";
     Schemas.slug := "corner-parcel";
     Schemas.summary := "Unserviced corner parcel";
     Schemas.description := "Land held for future use.";
     Schemas.address := "1 Side Rd";
     Schemas.city := "Guelph";
     Schemas.province := "ON";
     Schemas.country := "Canada";
     Schemas.images := [];
     Schemas.category := "land";
     Schemas.development_type := None;
     Schemas.commercial_type := None;
     Schemas.hospitality_type := None;
     Schemas.size_sqft := None;
     Schemas.lot_acres := Some (PyFloat.of_Z 0);
     Schemas.year_built := None;
     Schemas.status := "available";
     Schemas.price := None;
     Schemas.highlights := [];
     Schemas.coordinates := None |}.


End Samples.

(** ** Recognising the lines of the other topics, and the invariant of the
    collection *)

Module Lines.

Import Store.



(** The slugs of the collection, in its order. *)
Definition slugs (db : Database) : list string :=
  List.map (fun d => Doc.slug (fields d)) (property db).

(** No two documents of the collection have the same slug. *)
Definition unique_slugs (db : Database) : Prop := List.NoDup (slugs db).

End Lines.

(** ** [main.py]: the diagnostic endpoint *)

Module Diagnostics.

Import PyStr.

(** What a call of the driver gives: a value, or an exception with its
    text [str(e)]. *)
Inductive Outcome (A : Type) : Type :=
| Returns (value : A)
| Raises (text : string).

Arguments Returns {A} value.
Arguments Raises {A} text.

(** What [test_database] observes of the handle [db] when it is not
    [None]: [getattr(db, 'name', None)] and the outcome of
    [db.list_collection_names()]. *)
Record Handle := {
  name : option string;
  list_collection_names : Outcome (list string)
}.

(** The dictionary [response]. *)
Record Response := {
  backend : string;
  database : string;
  database_url : option string;
  database_name : option string;
  connection_status : string;
  collections : list string
}.

(** [response[key] = value], key by key. *)
Definition set_database (value : string) (r : Response) : Response :=
  {| backend := backend r; database := value;
     database_url := database_url r; database_name := database_name r;
     connection_status := connection_status r;
     collections := collections r |}.

Definition set_database_url (value : string) (r : Response) : Response :=
  {| backend := backend r; database := database r;
     database_url := Some value; database_name := database_name r;
     connection_status := connection_status r;
     collections := collections r |}.

Definition set_database_name (value : string) (r : Response) : Response :=
  {| backend := backend r; database := database r;
     database_url := database_url r; database_name := Some value;
     connection_status := connection_status r;
     collections := collections r |}.

Definition set_connection_status (value : string) (r : Response) : Response :=
  {| backend := backend r; database := database r;
     database_url := database_url r; database_name := database_name r;
     connection_status := value;
     collections := collections r |}.

Definition set_collections (value : list string) (r : Response) : Response :=
  {| backend := backend r; database := database r;
     database_url := database_url r; database_name := database_name r;
     connection_status := connection_status r;
     collections := value |}.

(** [x or fallback], for an optional string. *)
Definition or_else (x : option string) (fallback : string) : string :=
  match x with
  | Some s => if truthy s then s else fallback
  | None => fallback
  end.

(** A byte that continues a character of a UTF-8 text: [10xxxxxx].  Every
    other byte starts a character. *)
Definition is_continuation (c : ascii) : bool :=
  let n := N_of_ascii c in ((128 <=? n) && (n <=? 191))%N.

(** [s[:n]]: the first [n] characters of the text, each with all its
    bytes.  A byte that starts a character is kept while characters are
    left to take; the bytes that continue a character go with it. *)
Fixpoint slice_to (n : nat) (s : string) : string :=
  match s with
  | EmptyString => EmptyString
  | String c s' =>
      if is_continuation c then String c (slice_to n s')
      else
        match n with
        | O => EmptyString
        | S n' => String c (slice_to n' s')
        end
  end.

(** [len(s)]: the number of characters of the text. *)
Fixpoint char_count (s : string) : nat :=
  match s with
  | EmptyString => O
  | String c s' =>
      if is_continuation c then char_count s' else S (char_count s')
  end.

(** A text that is empty or begins at the start of a character. *)
Definition starts_char (s : string) : bool :=
  match s with
  | EmptyString => true
  | String c _ => negb (is_continuation c)
  end.

(** [GET /test].  [db] is the handle, [None] when the store was not set
    up; [getenv] is [os.getenv].  [str(e)[:50]] is the first fifty
    characters of the text of the exception.  In the outer [try] only
    [list_collection_names] raises, and the inner handler catches it, so the
    outer handler has no case here. *)
Definition test_database (db : option Handle)
    (getenv : string -> option string) : Response :=
  let response :=
    {| backend := "✅ Running";
       database := "❌ Not Available";
       database_url := None;
       database_name := None;
       connection_status := "Not Connected";
       collections := [] |} in
  let response :=
    match db with
    | Some db =>
        let response := set_database "✅ Available" response in
        let response := set_database_url "✅ Configured" response in
        let response :=
          set_database_name (or_else (name db) "✅ Connected") response in
        let response := set_connection_status "Connected" response in
        match list_collection_names db with
        | Returns collections =>
            let response := set_collections (take 10 collections) response in
            let response := set_database "✅ Connected & Working" response in
            response
        | Raises e =>
            set_database ("⚠️  Connected but Error: " +:+ slice_to 50 e) response
        end
    | None => set_database "⚠️  Available but not initialized" response
    end in
  let response :=
    set_database_url
      (if truthy_opt (getenv "DATABASE_URL") then "✅ Set" else "❌ Not Set")
      response in
  let response :=
    set_database_name
      (if truthy_opt (getenv "DATABASE_NAME") then "✅ Set" else "❌ Not Set")
      response in
  response.

End Diagnostics.

(** ** Further documents for the examples *)

Module Cases.

Import Store.



End Cases.

(** * Properties *)

Import PyStr Store Main Topics Samples.

(** ** Text: appending, joining, searching *)

Section Strings.

Lemma append_assoc (a b c : string) : (a +:+ b) +:+ c = a +:+ b +:+ c.
Proof.
  induction a as [|x a IH]; [reflexivity|].
  exact (f_equal (String x) IH).
Qed.

Lemma append_nil_r (s : string) : s +:+ EmptyString = s.
Proof.
  induction s as [|c s IH]; [reflexivity|]. exact (f_equal (String c) IH).
Qed.

Lemma prefix_nil (s : string) : String.prefix EmptyString s = true.
Proof. now destruct s. Qed.

Lemma prefix_append (sub s : string) : String.prefix sub (sub +:+ s) = true.
Proof.
  induction sub as [|c sub IH]; [apply prefix_nil|].
  change (String c sub +:+ s) with (String c (sub +:+ s)).
  cbn [String.prefix]. now destruct (ascii_dec c c).
Qed.

Lemma contains_unfold (sub s : string) :
  contains sub s
  = String.prefix sub s
    || match s with
       | EmptyString => false
       | String _ s' => contains sub s'
       end.
Proof. now destruct s. Qed.

(** A text contains each of its parts. *)
Lemma contains_append (before sub after : string) :
  contains sub (before +:+ sub +:+ after) = true.
Proof.
  induction before as [|c before IH].
  - change (EmptyString +:+ sub +:+ after) with (sub +:+ after).
    now rewrite contains_unfold, prefix_append.
  - change (String c before +:+ sub +:+ after)
      with (String c (before +:+ sub +:+ after)).
    cbn [contains]. rewrite IH. apply orb_true_r.
Qed.

Lemma join_lines_cons (l : string) (lines : list string) :
  exists rest, join_lines (l :: lines) = l +:+ rest.
Proof.
  destruct lines as [|l' lines].
  - exists EmptyString. symmetry. apply append_nil_r.
  - eexists. reflexivity.
Qed.

Lemma join_lines_in (l : string) (lines : list string) :
  In l lines ->
  exists before after, join_lines lines = before +:+ l +:+ after.
Proof.
  induction lines as [|x lines IH]; [intros []|].
  intros [->|Hin].
  - destruct (join_lines_cons l lines) as [rest E].
    exists EmptyString, rest. exact E.
  - destruct lines as [|y lines]; [destruct Hin|].
    destruct (IH Hin) as (before & after & E).
    exists (x +:+ newline +:+ before), after.
    change (join_lines (x :: y :: lines))
      with (x +:+ newline +:+ join_lines (y :: lines)).
    now rewrite E, !append_assoc.
Qed.

(** Every line is a part of the text the lines are joined into. *)
Lemma contains_line (l : string) (lines : list string) :
  In l lines -> contains l (join_lines lines) = true.
Proof.
  intros Hin. destruct (join_lines_in l lines Hin) as (before & after & ->).
  apply contains_append.
Qed.

End Strings.

(** ** The responder, topic by topic *)

Section ResponderTopics.

Lemma fold_left_append (f : string -> string) (hs lines : list string) :
  fold_left (fun lines h => lines ++ [f h]) hs lines = lines ++ List.map f hs.
Proof.
  revert lines; induction hs as [|h hs IH]; intros lines; simpl.
  - now rewrite app_nil_r.
  - rewrite IH, <- app_assoc. reflexivity.
Qed.


Lemma append_title_titled (value : option string) (parts : list string) :
  append_title value parts = parts ++ titled value.
Proof.
  destruct value as [[|c s]|]; simpl; now rewrite ?app_nil_r.
Qed.

Lemma status_shown_eq (doc : Document) :
  (if truthy_opt (Doc.status (fields doc))
   then title (default EmptyString (Doc.status (fields doc)))
   else "Available") = status_shown doc.
Proof.
  unfold status_shown. now destruct (Doc.status (fields doc)).
Qed.

Lemma if_append (c : bool) (lines block : list string) :
  (if c then lines ++ block else lines) = lines ++ (if c then block else []).
Proof. destruct c; now rewrite ?app_nil_r. Qed.

Lemma if_append2 (c : bool) (lines block1 block2 : list string) :
  (if c then (lines ++ block1) ++ block2 else lines)
  = lines ++ (if c then block1 ++ block2 else []).
Proof. destruct c; now rewrite ?app_nil_r, <- ?app_assoc. Qed.

(** Each block of the handler appends the lines of its topic. *)
Lemma price_block (doc : Document) (c : bool) (lines : list string) :
  (if c then
     match Doc.price (fields doc) with
     | Some price =>
         lines ++ ["- Current guidance price is $"
                   +:+ PyFloat.format_f true 0 price +:+ "."]
     | None => lines ++ ["- Pricing is available upon request."]
     end
   else lines)
  = lines ++ (if c then [price_line doc] else []).
Proof.
  unfold price_line.
  destruct c, (Doc.price (fields doc)); now rewrite ?app_nil_r.
Qed.

Lemma measure_block (line : PyFloat.float -> string)
    (value : option PyFloat.float) (lines : list string) :
  match value with
  | Some x => if PyFloat.truthy x then lines ++ [line x] else lines
  | None => lines
  end = lines ++ measure_lines line value.
Proof.
  unfold measure_lines.
  destruct value as [x|]; [destruct (PyFloat.truthy x)|];
    now rewrite ?app_nil_r.
Qed.

Lemma zoning_block (parts lines : list string) :
  match parts with
  | [] => lines
  | _ :: _ => lines ++ ["- Property type: " +:+ String.concat ", " parts]
  end
  = lines ++ match parts with
             | [] => []
             | _ :: _ => ["- Property type: " +:+ String.concat ", " parts]
             end.
Proof. destruct parts; now rewrite ?app_nil_r. Qed.

Lemma fallback_block (highlights lines : list string) :
  match highlights with
  | [] =>
      match highlights with
      | _ :: _ =>
          fold_left (fun lines h => lines ++ ["  • " +:+ h])
            (take 5 highlights) (lines ++ ["Key highlights:"])
      | [] => lines
      end ++ [fallback_prompt]
  | _ :: _ =>
      match highlights with
      | _ :: _ =>
          fold_left (fun lines h => lines ++ ["  • " +:+ h])
            (take 5 highlights) (lines ++ ["Key highlights:"])
      | [] => lines
      end
  end
  = lines ++ match highlights with
             | [] => [fallback_prompt]
             | _ :: _ => highlights_header :: List.map bullet (take 5 highlights)
             end.
Proof.
  destruct highlights as [|h hs]; [reflexivity|].
  rewrite (fold_left_append (fun h => "  • " +:+ h)), <- app_assoc.
  reflexivity.
Qed.

(** The answer is the opening line followed by the lines of the topics the
    question names, in the order Price, Size, Zoning, Status, and then by
    the overview when it names none. *)
Lemma responder_lines_topics (doc : Document) (body : ChatRequest) :
  let q := lower (or_empty (message body)) in
  responder_lines doc body
  = opening_line doc
    :: (if price_keywords q then [price_line doc] else [])
    ++ (if size_keywords q then size_lines doc else [])
    ++ (if zoning_keywords q then zoning_lines doc else [])
    ++ (if status_keywords q then [status_line doc] else [])
    ++ (if any_keyword q then [] else fallback_lines doc).
Proof.
  intros q. unfold responder_lines. fold q.
  rewrite status_shown_eq, !append_title_titled.
  fold (status_line doc) fallback_prompt.
  rewrite fallback_block, zoning_block, !measure_block, price_block.
  rewrite !if_append, if_append2, <- !app_assoc. cbn [app].
  fold (opening_line doc). f_equal.
  destruct (any_keyword q); reflexivity.
Qed.

(** The reply of the handler, for a slug that is found. *)
Lemma chat_about_property_found (db : Database) (slug : string)
    (doc : Document) (body : ChatRequest) :
  find_one db slug = Some doc ->
  chat_about_property db slug body
  = (Ok (join_lines (responder_lines doc body)), db).
Proof. intros E. unfold chat_about_property. now rewrite E. Qed.

Lemma chat_about_property_not_found (db : Database) (slug : string)
    (body : ChatRequest) :
  find_one db slug = None ->
  chat_about_property db slug body
  = (HTTPException 404 "Property not found", db).
Proof. intros E. unfold chat_about_property. now rewrite E. Qed.

End ResponderTopics.

(** ** Price and Size together *)

Section Additivity.

Lemma price_12500000 : PyFloat.format_f true 0 (PyFloat.of_Z 12500000) = "12,500,000".
Proof. reflexivity. Qed.

Lemma size_45000 : PyFloat.format_f true 0 (PyFloat.of_Z 45000) = "45,000".
Proof. reflexivity. Qed.

(** C1, as stated, fails: the seeded listing Grandview Retirement Residence
    has neither a price nor a size; asked for price and size, both topics
    are triggered, and the answer is the opening line and the line that
    pricing is on request, with no line of the Size topic. *)
Lemma additivity_counterexample :
  price_keywords (lower "What's the price and size?") = true
  /\ size_keywords (lower "What's the price and size?") = true
  /\ find_one seeded_db "grandview-retirement-residence" = Some grandview
  /\ responder_lines grandview (ask "What's the price and size?")
     = ["You're asking about Grandview Retirement Residence in Waterloo. Here's what I can share:";
        "- Pricing is available upon request."]
  /\ List.filter is_size_line
       (responder_lines grandview (ask "What's the price and size?")) = [].
Proof. repeat split; reflexivity. Qed.

(** C1, amended: when the lower-cased question has a Price keyword and a
    Size keyword, the answer is the opening line, then the line of the Price
    topic (the price, or that pricing is on request when there is none),
    then the lines of the Size topic (interior size when [size_sqft] is
    present and not zero, lot size when [lot_acres] is; none when both are
    empty), then the lines of the later topics.  For a listing with price
    12500000 and size 45000 and the question "What's the price and size?"
    the answer has the line with $12,500,000 and, after it, the line with
    45,000 sq ft. *)
Theorem responder_additivity (doc : Document) (body : ChatRequest) :
  (price_keywords (lower (or_empty (message body))) = true ->
   size_keywords (lower (or_empty (message body))) = true ->
   exists rest,
     responder_lines doc body
     = opening_line doc :: price_line doc :: size_lines doc ++ rest)
  /\ (message body = Some "What's the price and size?" ->
      Doc.price (fields doc) = Some (PyFloat.of_Z 12500000) ->
      Doc.size_sqft (fields doc) = Some (PyFloat.of_Z 45000) ->
      (exists rest,
         responder_lines doc body
         = opening_line doc
           :: "- Current guidance price is $12,500,000."
           :: "- Interior size is approx. 45,000 sq ft." :: rest)
      /\ contains "- Current guidance price is $12,500,000."
           (responder doc body) = true
      /\ contains "- Interior size is approx. 45,000 sq ft."
           (responder doc body) = true).
Proof.
  pose proof (responder_lines_topics doc body) as E. cbv zeta in E.
  split.
  - intros Hp Hs. rewrite Hp, Hs in E. rewrite E. cbn [app].
    eexists. reflexivity.
  - intros Hm Hprice Hsize. rewrite Hm in E.
    replace (price_keywords _) with true in E by reflexivity.
    replace (size_keywords _) with true in E by reflexivity.
    unfold price_line, size_lines in E.
    rewrite Hprice, Hsize in E. unfold measure_lines at 1, interior_line in E.
    rewrite price_12500000, size_45000 in E. cbn [app PyFloat.truthy] in E.
    change (PyFloat.truthy (PyFloat.of_Z 45000)) with true in E.
    cbv iota in E. cbn [app] in E.
    split; [eexists; exact E|].
    unfold responder. rewrite E.
    split; apply contains_line; [right; left | right; right; left];
      reflexivity.
Qed.

Lemma responder_additivity_witness :
  (exists rest,
     responder_lines plaza (ask "What's the price and size?")
     = opening_line plaza :: price_line plaza :: size_lines plaza ++ rest)
  /\ contains "- Current guidance price is $12,500,000."
       (responder plaza (ask "What's the price and size?")) = true
  /\ contains "- Interior size is approx. 45,000 sq ft."
       (responder plaza (ask "What's the price and size?")) = true.
Proof.
  destruct (responder_additivity plaza (ask "What's the price and size?"))
    as [H1 H2].
  split; [apply H1; reflexivity | apply H2; reflexivity].
Defined.

End Additivity.

(** ** The overview *)

Section Fallback.





End Fallback.

(** ** The Size topic: the lot line *)

Section LotLine.






End LotLine.

(** ** The Status topic *)

Section StatusLine.





End StatusLine.

(** ** The repository: lookup by slug, creation, seeding *)

Section Repository.

Lemma find_one_none (db : Database) (slug : string) :
  (forall d, In d (property db) -> Doc.slug (fields d) <> slug) ->
  find_one db slug = None.
Proof.
  intros Hno. unfold find_one.
  destruct (List.find _ (property db)) as [d|] eqn:E; [|reflexivity].
  apply List.find_some in E as [Hin Heq].
  apply String.eqb_eq in Heq. now apply Hno in Hin.
Qed.

Lemma find_one_some (db : Database) (slug : string) :
  (exists d, In d (property db) /\ Doc.slug (fields d) = slug) ->
  exists d, find_one db slug = Some d
            /\ In d (property db) /\ Doc.slug (fields d) = slug.
Proof.
  intros (d & Hin & Hslug). unfold find_one.
  destruct (List.find _ (property db)) as [d'|] eqn:E.
  - apply List.find_some in E as [Hin' Heq]. apply String.eqb_eq in Heq.
    now exists d'.
  - apply (List.find_none _ _ E) in Hin.
    apply String.eqb_neq in Hin. contradiction.
Qed.

(** C6: a create request whose slug is the slug of a stored listing is
    answered 400, "Slug already exists", and the database is left as it
    was: no document is inserted. *)
Theorem create_conflict_no_mutation (db : Database)
    (payload : Schemas.Property) :
  (exists d, In d (property db)
             /\ Doc.slug (fields d) = Schemas.slug payload) ->
  create_property db payload
  = (HTTPException 400 "Slug already exists", db).
Proof.
  intros Hex. apply find_one_some in Hex as (d & E & _).
  unfold create_property. now rewrite E.
Qed.

Lemma create_conflict_no_mutation_witness :
  create_property seeded_db isherwood_plaza
  = (HTTPException 400 "Slug already exists", seeded_db).
Proof.
  apply create_conflict_no_mutation.
  exists plaza. split; [left|]; reflexivity.
Defined.

(** C7: for a slug that no stored listing has, the lookup is answered 404,
    "Property not found"; for a slug that a stored listing has, it answers
    that listing, its [_id] replaced by the string [id]; and whatever it
    answers with success is a stored listing with that slug. *)
Theorem get_property_by_slug (db : Database) (slug : string) :
  ((forall d, In d (property db) -> Doc.slug (fields d) <> slug) ->
   get_property db slug = HTTPException 404 "Property not found")
  /\ ((exists d, In d (property db) /\ Doc.slug (fields d) = slug) ->
      exists d, In d (property db) /\ Doc.slug (fields d) = slug
                /\ get_property db slug
                   = Ok {| id := str (_id d); listing := fields d |})
  /\ (forall l, get_property db slug = Ok l ->
      exists d, In d (property db) /\ Doc.slug (fields d) = slug
                /\ l = {| id := str (_id d); listing := fields d |}).
Proof.
  unfold get_property. split; [|split].
  - intros Hno. now rewrite find_one_none.
  - intros Hex. apply find_one_some in Hex as (d & E & Hin & Hslug).
    exists d. now rewrite E.
  - intros l. destruct (find_one db slug) as [d|] eqn:E; [|discriminate].
    intros [= <-]. exists d.
    apply List.find_some in E as [Hin Heq]. apply String.eqb_eq in Heq.
    auto.
Qed.

Lemma get_property_by_slug_witness :
  get_property seeded_db "isherwood-mall" = HTTPException 404 "Property not found"
  /\ exists d, In d (property seeded_db)
               /\ Doc.slug (fields d) = "isherwood-plaza"
               /\ get_property seeded_db "isherwood-plaza"
                  = Ok {| id := str (_id d); listing := fields d |}.
Proof.
  split.
  - apply (proj1 (get_property_by_slug seeded_db "isherwood-mall")).
    intros d [<-|[<-|[<-|[<-|[]]]]]; discriminate.
  - apply (proj1 (proj2 (get_property_by_slug seeded_db "isherwood-plaza"))).
    exists plaza. split; [left|]; reflexivity.
Defined.

(** C3, as stated, fails: the four listings inserted into an empty
    collection have three categories between them, two being commercial. *)
Lemma seed_categories_counterexample :
  property empty_db = []
  /\ List.map (fun d => Doc.category (fields d))
       (property (snd (seed_demo empty_db)))
     = [Some "commercial"; Some "development"; Some "commercial";
        Some "hospitality"]
  /\ ~ NoDup (List.map (fun d => Doc.category (fields d))
                (property (snd (seed_demo empty_db)))).
Proof.
  repeat split; try reflexivity.
  intros H. apply NoDup_cons_1_1 in H. apply H.
  right. left.
Qed.

(** C3, amended: on an empty collection the seed operation inserts exactly
    the four fixed listings, Isherwood Plaza, Riverside Towers, Isherwood
    Industrial Park and Grandview Retirement Residence, in this order,
    whose categories are commercial, development, commercial and
    hospitality, and reports the count 4; on a collection that is not
    empty it inserts nothing and reports the count of the documents
    there. *)
Theorem seed_demo_gate (db : Database) :
  (property db = [] ->
   seed_demo db
   = ({| seed_message := "Seeded demo properties"; count := 4 |},
      {| property :=
           [ {| _id := next_id db; fields := model_dump isherwood_plaza |};
             {| _id := N.succ (next_id db);
                fields := model_dump riverside_towers |};
             {| _id := N.succ (N.succ (next_id db));
                fields := model_dump isherwood_industrial_park |};
             {| _id := N.succ (N.succ (N.succ (next_id db)));
                fields := model_dump grandview_retirement_residence |} ];
         next_id := N.succ (N.succ (N.succ (N.succ (next_id db)))) |}))
  /\ List.map Schemas.category samples
     = ["commercial"; "development"; "commercial"; "hospitality"]
  /\ forallb Schemas.validate samples = true
  /\ (property db <> [] ->
      seed_demo db
      = ({| seed_message := "Collection already seeded";
            count := Z.of_nat (length (property db)) |}, db)).
Proof.
  destruct db as [docs next]. cbn [property Store.next_id].
  repeat split; try reflexivity.
  - intros ->. reflexivity.
  - intros Hne. destruct docs as [|d docs]; [contradiction|]. reflexivity.
Qed.

Lemma seed_demo_gate_witness :
  count (fst (seed_demo empty_db)) = 4
  /\ length (property (snd (seed_demo empty_db))) = 4%nat
  /\ seed_demo seeded_db
     = ({| seed_message := "Collection already seeded"; count := 4 |},
        seeded_db).
Proof.
  destruct (seed_demo_gate empty_db) as (Hempty & _ & _ & _).
  destruct (seed_demo_gate seeded_db) as (_ & _ & _ & Hseeded).
  rewrite (Hempty eq_refl).
  split; [reflexivity|]. split; [reflexivity|].
  apply Hseeded. discriminate.
Defined.

End Repository.

(** ** The responder as a function *)

Section ResponderFunction.







End ResponderFunction.

(** ** The filters of the listing *)

Section Filters.

Lemma put_if_unset (key : string) (value : option string)
    (query : gmap string string) :
  put_if key value query = put_if key (unset value) query.
Proof. now destruct value as [[|c s]|]. Qed.

Lemma lookup_put_if_eq (key : string) (value : option string)
    (query : gmap string string) :
  put_if key value query !! key
  = match unset value with Some v => Some v | None => query !! key end.
Proof.
  destruct value as [[|c s]|]; cbn [put_if truthy unset]; try reflexivity.
  apply lookup_insert_eq.
Qed.

Lemma lookup_put_if_ne (key key' : string) (value : option string)
    (query : gmap string string) :
  key <> key' -> put_if key value query !! key' = query !! key'.
Proof.
  intros Hne.
  destruct value as [[|c s]|]; cbn [put_if truthy]; try reflexivity.
  now apply lookup_insert_ne.
Qed.

Ltac query_lookup :=
  unfold list_query;
  repeat (rewrite lookup_put_if_ne by discriminate);
  rewrite lookup_put_if_eq;
  repeat (rewrite lookup_put_if_ne by discriminate);
  rewrite lookup_empty;
  match goal with |- match ?o with _ => _ end = _ => now destruct o end.

(** C10: a filter given as the empty string is a filter not given: the
    query has, under each of the six keys, the value of its filter when
    that is a string that is not empty and nothing otherwise, the query is
    the one built with the empty filters left out, and so is the list of
    listings returned. *)
Theorem empty_filter_unset (db : Database)
    (category development_type commercial_type hospitality_type city status
       : option string) (limit : Z) :
  let query :=
    list_query category development_type commercial_type hospitality_type
      city status in
  query !! "category" = unset category
  /\ query !! "development_type" = unset development_type
  /\ query !! "commercial_type" = unset commercial_type
  /\ query !! "hospitality_type" = unset hospitality_type
  /\ query !! "city" = unset city
  /\ query !! "status" = unset status
  /\ query
     = list_query (unset category) (unset development_type)
         (unset commercial_type) (unset hospitality_type) (unset city)
         (unset status)
  /\ list_properties db category development_type commercial_type
       hospitality_type city status limit
     = list_properties db (unset category) (unset development_type)
         (unset commercial_type) (unset hospitality_type) (unset city)
         (unset status) limit.
Proof.
  intros query.
  assert (Hq : query
     = list_query (unset category) (unset development_type)
         (unset commercial_type) (unset hospitality_type) (unset city)
         (unset status)).
  { unfold query, list_query.
    rewrite (put_if_unset "status"), (put_if_unset "city"),
      (put_if_unset "hospitality_type"), (put_if_unset "commercial_type"),
      (put_if_unset "development_type"), (put_if_unset "category").
    reflexivity. }
  repeat split; try exact Hq; try (unfold query; query_lookup).
  unfold list_properties. fold query. now rewrite Hq.
Qed.

End Filters.

(** * Further properties of the handlers *)

Import Lines Cases.

(** ** Which lines a topic contributes, and when *)

Section TopicLines.

Lemma filter_if (r : string -> bool) (c : bool) (l : list string) :
  List.filter r (if c then l else []) = if c then List.filter r l else [].
Proof. now destruct c. Qed.

Lemma filter_all (r : string -> bool) (l : list string) :
  Forall (fun x => r x = true) l -> List.filter r l = l.
Proof.
  induction 1 as [|x l Hx _ IH]; [reflexivity|]. cbn [List.filter].
  now rewrite Hx, IH.
Qed.

Lemma filter_bullets (r : string -> bool) (hs : list string) :
  (forall h, r (bullet h) = false) -> List.filter r (List.map bullet hs) = [].
Proof.
  intros Hr. induction hs as [|h hs IH]; [reflexivity|].
  cbn [List.map List.filter]. now rewrite Hr.
Qed.

(** Filtering the answer with a test that the opening line and the lines of
    the overview fail leaves the lines of the topics that pass it. *)
Lemma filter_responder_lines (r : string -> bool) (doc : Document)
    (body : ChatRequest) :
  r (opening_line doc) = false ->
  r highlights_header = false ->
  r fallback_prompt = false ->
  (forall h, r (bullet h) = false) ->
  let q := lower (or_empty (message body)) in
  List.filter r (responder_lines doc body)
  = (if price_keywords q then List.filter r [price_line doc] else [])
    ++ (if size_keywords q then List.filter r (size_lines doc) else [])
    ++ (if zoning_keywords q then List.filter r (zoning_lines doc) else [])
    ++ (if status_keywords q then List.filter r [status_line doc] else []).
Proof.
  intros Ho Hh Hp Hb q. rewrite responder_lines_topics. fold q.
  change (opening_line doc :: ?l) with ([opening_line doc] ++ l).
  rewrite !List.filter_app, !filter_if.
  replace (List.filter r [opening_line doc]) with (@nil string)
    by (cbn [List.filter]; now rewrite Ho).
  replace (List.filter r
             (if any_keyword q then [] else fallback_lines doc))
    with (@nil string).
  { cbn [app]. now rewrite app_nil_r. }
  destruct (any_keyword q); [reflexivity|].
  unfold fallback_lines. destruct (Doc.highlights (fields doc)) as [|h hs].
  - cbn [List.filter]. now rewrite Hp.
  - cbn [List.filter]. now rewrite Hh, filter_bullets.
Qed.

Lemma filter_measure_lines (r : string -> bool)
    (line : PyFloat.float -> string) (value : option PyFloat.float)
    (b : bool) :
  (forall x, r (line x) = b) ->
  List.filter r (measure_lines line value)
  = if b then measure_lines line value else [].
Proof.
  intros Hr. unfold measure_lines.
  destruct value as [x|]; [destruct (PyFloat.truthy x)|];
    cbn [List.filter]; rewrite ?Hr; now destruct b.
Qed.



(** X2: the lines of the Size topic in the answer are, when the lower-cased
    question has a Size keyword, the interior line if [size_sqft] is
    present and not zero followed by the lot line if [lot_acres] is
    present and not zero, and there is none otherwise: a size recorded as
    zero is passed over like one that is absent. *)
Theorem size_topic_lines (doc : Document) (body : ChatRequest) :
  List.filter is_size_line (responder_lines doc body)
  = if size_keywords (lower (or_empty (message body)))
    then
      match Doc.size_sqft (fields doc) with
      | Some size =>
          if PyFloat.truthy size
          then ["- Interior size is approx. "
                +:+ PyFloat.format_f true 0 size +:+ " sq ft."]
          else []
      | None => []
      end
      ++ match Doc.lot_acres (fields doc) with
         | Some acres =>
             if PyFloat.truthy acres
             then ["- Lot size is approx. "
                   +:+ PyFloat.format_f false 2 acres +:+ " acres."]
             else []
         | None => []
         end
    else [].
Proof.
  rewrite filter_responder_lines by (intros; reflexivity). cbv zeta.
  replace (List.filter is_size_line [price_line doc]) with (@nil string)
    by (unfold price_line; now destruct (Doc.price (fields doc))).
  replace (List.filter is_size_line (size_lines doc)) with (size_lines doc).
  2:{ unfold size_lines.
      now rewrite List.filter_app,
        !(filter_measure_lines _ _ _ true) by reflexivity. }
  replace (List.filter is_size_line (zoning_lines doc)) with (@nil string)
    by (unfold zoning_lines; now destruct (type_parts doc)).
  replace (List.filter is_size_line [status_line doc]) with (@nil string)
    by reflexivity.
  destruct (price_keywords _), (size_keywords _), (zoning_keywords _),
    (status_keywords _); cbn [app]; rewrite ?app_nil_r; reflexivity.
Qed.




End TopicLines.

(** ** How the question is read *)

Section Questions.












End Questions.

(** ** Creating, looking up and seeding together *)

Section Lifecycle.

Lemma find_app {A} (f : A -> bool) (l l' : list A) :
  List.find f (l ++ l')
  = match List.find f l with
    | Some x => Some x
    | None => List.find f l'
    end.
Proof.
  induction l as [|x l IH]; [reflexivity|]. cbn [app List.find].
  now destruct (f x).
Qed.

Lemma find_one_free (db : Database) (slug : string) :
  find_one db slug = None ->
  forall d, In d (property db) -> Doc.slug (fields d) <> slug.
Proof.
  unfold find_one. intros E d Hin.
  apply (List.find_none _ _ E) in Hin. now apply String.eqb_neq in Hin.
Qed.

(** What [create_property] does for a slug that is free. *)
Lemma create_property_free (db : Database) (payload : Schemas.Property) :
  find_one db (Schemas.slug payload) = None ->
  create_property db payload
  = (Ok (str (next_id db)),
     {| property :=
          property db
          ++ [ {| _id := next_id db; fields := model_dump payload |} ];
        next_id := N.succ (next_id db) |}).
Proof. intros E. unfold create_property. now rewrite E. Qed.

Lemma find_one_appended (docs : list Document) (next next' : ObjectId)
    (d : Document) (slug : string) :
  find_one {| property := docs ++ [d]; next_id := next' |} slug
  = match find_one {| property := docs; next_id := next |} slug with
    | Some x => Some x
    | None => if String.eqb (Doc.slug (fields d)) slug then Some d else None
    end.
Proof.
  unfold find_one. cbn [property]. rewrite find_app. cbn [List.find].
  reflexivity.
Qed.

(** X7: a listing created under a slug that no stored listing has is
    answered with the string of the id the store assigned, and from then
    on the lookup by that slug returns it, with that id and the fields
    that were sent, the responder answers about it, and a second create
    with the same slug is refused. *)
Theorem create_then_get (db : Database) (payload : Schemas.Property)
    (body : ChatRequest) :
  (forall d, In d (property db) ->
             Doc.slug (fields d) <> Schemas.slug payload) ->
  let db' := snd (create_property db payload) in
  fst (create_property db payload) = Ok (str (next_id db))
  /\ get_property db' (Schemas.slug payload)
     = Ok {| id := str (next_id db); listing := model_dump payload |}
  /\ fst (chat_about_property db' (Schemas.slug payload) body)
     = Ok (responder
             {| _id := next_id db; fields := model_dump payload |} body)
  /\ create_property db' payload
     = (HTTPException 400 "Slug already exists", db').
Proof.
  intros Hfree db'. apply find_one_none in Hfree.
  unfold db'. rewrite (create_property_free _ _ Hfree). cbn [fst snd].
  assert (E : find_one
    {| property :=
         property db
         ++ [ {| _id := next_id db; fields := model_dump payload |} ];
       next_id := N.succ (next_id db) |} (Schemas.slug payload)
    = Some {| _id := next_id db; fields := model_dump payload |}).
  { rewrite (find_one_appended _ (next_id db)).
    replace {| property := property db; next_id := next_id db |} with db
      by now destruct db.
    rewrite Hfree. cbn [fields Doc.slug model_dump].
    now rewrite String.eqb_refl. }
  unfold get_property, chat_about_property, create_property.
  rewrite E. repeat split.
Qed.

Lemma create_then_get_witness :
  get_property (snd (create_property seeded_db corner_parcel)) "corner-parcel"
  = Ok {| id := str 4%N; listing := model_dump corner_parcel |}.
Proof.
  apply (proj1 (proj2 (create_then_get seeded_db corner_parcel
                         (ask "status?")
                         ltac:(intros d [<-|[<-|[<-|[<-|[]]]]];
                               discriminate)))).
Defined.

(** X8: whatever a create request does, the documents stored before it are
    still there, unchanged and in the same order, with at most one added
    after them; and the lookups and the answers for every other slug are
    what they were. *)
Theorem create_keeps_others (db : Database) (payload : Schemas.Property) :
  let db' := snd (create_property db payload) in
  (exists added,
     property db' = property db ++ added /\ (length added <= 1)%nat)
  /\ (forall slug body,
      slug <> Schemas.slug payload ->
      get_property db' slug = get_property db slug
      /\ fst (chat_about_property db' slug body)
         = fst (chat_about_property db slug body)).
Proof.
  intros db'. unfold db', create_property.
  destruct (find_one db (Schemas.slug payload)) as [d|] eqn:E; cbn [snd].
  - split; [|auto]. exists []. rewrite app_nil_r. cbn [length]. split; [reflexivity|lia].
  - cbn [create_document snd]. split.
    + eexists. split; [reflexivity|]. cbn [length]. lia.
    + intros slug body Hne.
      unfold get_property, chat_about_property.
      rewrite (find_one_appended _ (next_id db)).
      replace {| property := property db; next_id := next_id db |} with db
        by now destruct db.
      destruct (find_one db slug); [now split|].
      cbn [fields Doc.slug model_dump].
      assert (Hb : String.eqb (Schemas.slug payload) slug = false)
        by (apply String.eqb_neq; congruence).
      now rewrite Hb.
Qed.

Lemma create_keeps_others_witness :
  get_property (snd (create_property seeded_db corner_parcel))
    "isherwood-plaza"
  = get_property seeded_db "isherwood-plaza".
Proof.
  apply (proj2 (create_keeps_others seeded_db corner_parcel)
           "isherwood-plaza" (ask "status?")).
  discriminate.
Defined.

Lemma NoDup_snoc {A} (l : list A) (x : A) :
  List.NoDup l -> ~ In x l -> List.NoDup (l ++ [x]).
Proof.
  induction l as [|a l IH]; intros Hnd Hx.
  - constructor; [intros []|constructor].
  - apply List.NoDup_cons_iff in Hnd as [Ha Hnd].
    cbn [app]. apply List.NoDup_cons_iff. split.
    + rewrite in_app_iff. intros [Hin|[->|[]]]; [contradiction|].
      apply Hx. now left.
    + apply IH; [assumption|]. intros Hin. apply Hx. now right.
Qed.

Lemma seeded_unique : unique_slugs seeded_db.
Proof.
  unfold unique_slugs, slugs. vm_compute.
  repeat constructor; cbn [In]; intros H;
    repeat (destruct H as [H|H]; [discriminate H|]); exact H.
Qed.

(** X9: the slugs stay unique: when no two stored documents have the same
    slug, none have after a create request, accepted or refused, and none
    have after a seed request. *)
Theorem unique_slugs_kept (db : Database) (payload : Schemas.Property) :
  unique_slugs db ->
  unique_slugs (snd (create_property db payload))
  /\ unique_slugs (snd (seed_demo db)).
Proof.
  unfold unique_slugs, slugs. intros Hnd. split.
  - unfold create_property.
    destruct (find_one db (Schemas.slug payload)) as [d|] eqn:E;
      [exact Hnd|].
    cbn [create_document snd property]. rewrite List.map_app.
    apply NoDup_snoc; [exact Hnd|].
    cbn [fields Doc.slug model_dump].
    intros (d & Hslug & Hin)%in_map_iff.
    now apply (find_one_free _ _ E d).
  - destruct db as [[|d docs] next]; [|exact Hnd].
    vm_compute. repeat constructor; cbn [In]; intros H;
      repeat (destruct H as [H|H]; [discriminate H|]); exact H.
Qed.

Lemma unique_slugs_kept_witness :
  unique_slugs (snd (create_property empty_db corner_parcel))
  /\ unique_slugs seeded_db.
Proof.
  apply (unique_slugs_kept empty_db corner_parcel). constructor.
Defined.

Lemma find_unique (docs : list Document) (d : Document) :
  List.NoDup (List.map (fun x => Doc.slug (fields x)) docs) ->
  In d docs ->
  List.find (fun x => String.eqb (Doc.slug (fields x)) (Doc.slug (fields d)))
    docs = Some d.
Proof.
  induction docs as [|a docs IH]; [intros _ []|].
  cbn [List.map List.find]. intros [Ha Hnd]%List.NoDup_cons_iff [->|Hin].
  - now rewrite String.eqb_refl.
  - destruct (String.eqb_spec (Doc.slug (fields a)) (Doc.slug (fields d)))
      as [Heq|_]; [|now apply IH].
    exfalso. apply Ha. rewrite Heq.
    exact (in_map (fun x => Doc.slug (fields x)) docs d Hin).
Qed.

(** X10: when the slugs are unique, the lookup by the slug of a stored
    document returns that very document, with its own id, and the
    responder answers about it. *)
Theorem unique_slug_lookup (db : Database) (d : Document)
    (body : ChatRequest) :
  unique_slugs db ->
  In d (property db) ->
  get_property db (Doc.slug (fields d))
  = Ok {| id := str (_id d); listing := fields d |}
  /\ chat_about_property db (Doc.slug (fields d)) body
     = (Ok (responder d body), db).
Proof.
  intros Hnd Hin. unfold get_property, chat_about_property, find_one.
  now rewrite (find_unique _ _ Hnd Hin).
Qed.

Lemma unique_slug_lookup_witness :
  get_property seeded_db "grandview-retirement-residence"
  = Ok {| id := str 3%N;
          listing := model_dump grandview_retirement_residence |}.
Proof.
  apply (proj1 (unique_slug_lookup seeded_db grandview (ask "status?")
                  seeded_unique
                  ltac:(right; right; right; left; reflexivity))).
Defined.

End Lifecycle.

(** ** Seeding *)

Section Seeding.

(** X11: after a seed request the collection is never empty and the count
    reported is the number of documents it then holds; a seed request that
    follows changes nothing and reports that same number, whatever the
    collection was to begin with. *)
Theorem seed_demo_idempotent (db : Database) :
  let db' := snd (seed_demo db) in
  property db' <> []
  /\ count (fst (seed_demo db)) = Z.of_nat (length (property db'))
  /\ seed_demo db'
     = ({| seed_message := "Collection already seeded";
           count := Z.of_nat (length (property db')) |}, db').
Proof.
  destruct db as [[|d docs] next]; cbv zeta.
  - repeat split. discriminate.
  - repeat split. discriminate.
Qed.

(** X12: after a seed request on an empty collection, each of the four
    samples is found under its slug, with the fields of the sample, and a
    create request under the slug of a sample is refused and changes
    nothing. *)
Theorem seeded_samples_found (db : Database) (sample : Schemas.Property) :
  property db = [] ->
  In sample samples ->
  let db' := snd (seed_demo db) in
  (exists oid,
     get_property db' (Schemas.slug sample)
     = Ok {| id := oid; listing := model_dump sample |})
  /\ (forall payload,
      Schemas.slug payload = Schemas.slug sample ->
      create_property db' payload
      = (HTTPException 400 "Slug already exists", db')).
Proof.
  destruct db as [docs next]. cbn [property]. intros -> Hin. cbv zeta.
  set (db' := snd (seed_demo {| property := []; next_id := next |})).
  assert (Hfound : exists d,
    find_one db' (Schemas.slug sample) = Some d
    /\ fields d = model_dump sample).
  { destruct Hin as [<-|[<-|[<-|[<-|[]]]]]; eexists; split; reflexivity. }
  destruct Hfound as (d & E & Hd). split.
  - exists (str (_id d)). unfold get_property. rewrite E.
    unfold pop_id. now rewrite Hd.
  - intros payload Hslug. unfold create_property. now rewrite Hslug, E.
Qed.

Lemma seeded_samples_found_witness :
  (exists oid,
     get_property seeded_db "riverside-towers"
     = Ok {| id := oid; listing := model_dump riverside_towers |})
  /\ create_property seeded_db riverside_towers
     = (HTTPException 400 "Slug already exists", seeded_db).
Proof.
  destruct (seeded_samples_found empty_db riverside_towers eq_refl
              ltac:(right; left; reflexivity)) as [H1 H2].
  split; [exact H1|]. apply H2. reflexivity.
Defined.

End Seeding.

(** ** The listing and its filters *)

Section Listing.

Ltac filter_lookup :=
  unfold list_query;
  repeat (rewrite lookup_put_if_ne by discriminate);
  rewrite lookup_put_if_eq;
  repeat (rewrite lookup_put_if_ne by discriminate);
  rewrite lookup_empty;
  match goal with |- match ?o with _ => _ end = _ => now destruct o end.

Lemma in_take {A} (x : A) (n : nat) (l : list A) :
  In x (take n l) -> In x l.
Proof.
  revert n. induction l as [|a l IH]; intros [|n]; cbn [take In];
    try tauto.
  intros [->|Hin]; [now left|right; eauto].
Qed.

Lemma matches_lookup (query : gmap string string) (d : Document)
    (key value : string) :
  matches query d = true ->
  query !! key = Some value ->
  Doc.get_str (fields d) key = Some value.
Proof.
  unfold matches. intros Hm%bool_decide_eq_true Hq. exact (Hm key value Hq).
Qed.

(** X13: every listing the list operation returns is a stored document,
    its [_id] given as the string [id], and it has, under each filter that
    was given as a string that is not empty, exactly that string. *)
Theorem list_properties_filtered (db : Database)
    (category development_type commercial_type hospitality_type city status
       : option string) (limit : Z) (l : Listing) :
  In l (list_properties db category development_type commercial_type
          hospitality_type city status limit) ->
  (exists doc, In doc (property db)
               /\ l = {| id := str (_id doc); listing := fields doc |})
  /\ (forall v, category = Some v -> v <> EmptyString ->
      Doc.category (listing l) = Some v)
  /\ (forall v, development_type = Some v -> v <> EmptyString ->
      Doc.development_type (listing l) = Some v)
  /\ (forall v, commercial_type = Some v -> v <> EmptyString ->
      Doc.commercial_type (listing l) = Some v)
  /\ (forall v, hospitality_type = Some v -> v <> EmptyString ->
      Doc.hospitality_type (listing l) = Some v)
  /\ (forall v, city = Some v -> v <> EmptyString ->
      Doc.city (listing l) = v)
  /\ (forall v, status = Some v -> v <> EmptyString ->
      Doc.status (listing l) = Some v).
Proof.
  unfold list_properties, get_documents.
  intros (doc & <- & Hin)%in_map_iff.
  apply in_take, List.filter_In in Hin as [Hin Hm].
  assert (Hu : forall o v, o = Some v -> v <> EmptyString -> unset o = Some v).
  { intros o v -> Hv. now destruct v. }
  split; [now exists doc|].
  repeat split; intros v Hv Hne; cbn [listing pop_id].
  - assert (Hq : list_query category development_type commercial_type
                   hospitality_type city status !! "category"
                 = unset category) by filter_lookup.
    rewrite (Hu _ _ Hv Hne) in Hq. exact (matches_lookup _ _ _ _ Hm Hq).
  - assert (Hq : list_query category development_type commercial_type
                   hospitality_type city status !! "development_type"
                 = unset development_type) by filter_lookup.
    rewrite (Hu _ _ Hv Hne) in Hq. exact (matches_lookup _ _ _ _ Hm Hq).
  - assert (Hq : list_query category development_type commercial_type
                   hospitality_type city status !! "commercial_type"
                 = unset commercial_type) by filter_lookup.
    rewrite (Hu _ _ Hv Hne) in Hq. exact (matches_lookup _ _ _ _ Hm Hq).
  - assert (Hq : list_query category development_type commercial_type
                   hospitality_type city status !! "hospitality_type"
                 = unset hospitality_type) by filter_lookup.
    rewrite (Hu _ _ Hv Hne) in Hq. exact (matches_lookup _ _ _ _ Hm Hq).
  - assert (Hq : list_query category development_type commercial_type
                   hospitality_type city status !! "city"
                 = unset city) by filter_lookup.
    rewrite (Hu _ _ Hv Hne) in Hq.
    pose proof (matches_lookup _ _ _ _ Hm Hq) as Hc.
    now injection Hc.
  - assert (Hq : list_query category development_type commercial_type
                   hospitality_type city status !! "status"
                 = unset status) by filter_lookup.
    rewrite (Hu _ _ Hv Hne) in Hq. exact (matches_lookup _ _ _ _ Hm Hq).
Qed.

Lemma list_properties_filtered_witness :
  Doc.category (listing (pop_id plaza)) = Some "commercial"
  /\ Doc.city (listing (pop_id plaza)) = "Cambridge".
Proof.
  assert (Hin : In (pop_id plaza)
    (list_properties seeded_db (Some "commercial") None None None
       (Some "Cambridge") (Some EmptyString) 50)).
  { vm_compute. left. reflexivity. }
  destruct (list_properties_filtered _ _ _ _ _ _ _ _ _ Hin)
    as (_ & Hc & _ & _ & _ & Hci & _).
  split; [apply Hc|apply Hci]; (reflexivity || discriminate).
Defined.

End Listing.

(** ** The diagnostic endpoint *)

Section DiagnosticEndpoint.

Import Diagnostics.

(** The slice and what it leaves make up the text, and the slice ends
    where a character ends. *)
Lemma slice_to_split (n : nat) (s : string) :
  exists rest, s = slice_to n s +:+ rest /\ starts_char rest = true.
Proof.
  revert n. induction s as [|c s IH]; intros n.
  - exists EmptyString. now split.
  - cbn [slice_to]. destruct (is_continuation c) eqn:Ec.
    + destruct (IH n) as (rest & E & Hr). exists rest. split; [|exact Hr].
      exact (f_equal (String c) E).
    + destruct n as [|n].
      * exists (String c s). split; [reflexivity|].
        cbn [starts_char]. now rewrite Ec.
      * destruct (IH n) as (rest & E & Hr). exists rest. split; [|exact Hr].
        exact (f_equal (String c) E).
Qed.

Lemma char_count_slice_to (n : nat) (s : string) :
  char_count (slice_to n s) = Nat.min n (char_count s).
Proof.
  revert n. induction s as [|c s IH]; intros n.
  - cbn [slice_to char_count]. lia.
  - cbn [slice_to char_count]. destruct (is_continuation c) eqn:Ec.
    + cbn [char_count]. rewrite Ec. apply IH.
    + destruct n as [|n]; [reflexivity|].
      cbn [char_count]. rewrite Ec, IH. lia.
Qed.

Lemma slice_to_all (n : nat) (s : string) :
  (char_count s <= n)%nat -> slice_to n s = s.
Proof.
  revert n. induction s as [|c s IH]; intros n; [reflexivity|].
  cbn [slice_to char_count]. destruct (is_continuation c).
  - intros Hn. now rewrite IH.
  - destruct n as [|n]; [lia|]. intros Hn. rewrite IH; [reflexivity|lia].
Qed.

(** X14: what the diagnostic reports under [database_url] and
    [database_name] is decided by the environment alone: "Set" when the
    variable holds a string that is not empty, "Not Set" otherwise.  What
    the branch for a present handle wrote there, the word Configured and
    the name of the database, is overwritten and never reported. *)
Theorem test_database_environment (db : option Handle)
    (getenv : string -> option string) :
  database_url (test_database db getenv)
  = Some (match getenv "DATABASE_URL" with
          | Some (String _ _) => "✅ Set"
          | _ => "❌ Not Set"
          end)
  /\ database_name (test_database db getenv)
     = Some (match getenv "DATABASE_NAME" with
             | Some (String _ _) => "✅ Set"
             | _ => "❌ Not Set"
             end)
  /\ database_url (test_database db getenv) <> Some "✅ Configured"
  /\ (forall db', database_url (test_database db' getenv)
                  = database_url (test_database db getenv)
                  /\ database_name (test_database db' getenv)
                     = database_name (test_database db getenv)).
Proof.
  assert (H : forall d,
    database_url (test_database d getenv)
    = Some (match getenv "DATABASE_URL" with
            | Some (String _ _) => "✅ Set"
            | _ => "❌ Not Set"
            end)
    /\ database_name (test_database d getenv)
       = Some (match getenv "DATABASE_NAME" with
               | Some (String _ _) => "✅ Set"
               | _ => "❌ Not Set"
               end)).
  { intros d. unfold test_database. cbn.
    split.
    - now destruct (getenv "DATABASE_URL") as [[|c s]|].
    - now destruct (getenv "DATABASE_NAME") as [[|c s]|]. }
  destruct (H db) as [Hu Hn].
  split; [exact Hu|]. split; [exact Hn|]. split.
  - rewrite Hu. now destruct (getenv "DATABASE_URL") as [[|c s]|].
  - intros db'. destruct (H db') as [Hu' Hn']. now rewrite Hu, Hn, Hu', Hn'.
Qed.

(** X15: the diagnostic lists the first ten collections at most, and none
    when there is no handle or when listing them raises; the status is
    Connected exactly when there is a handle, even if listing raises; and
    the text reported for an exception is the fixed words followed by the
    first fifty characters of its message, whole characters whatever the
    number of their bytes, and by all of the message when it has no more
    than fifty. *)
Theorem test_database_collections (db : option Handle)
    (getenv : string -> option string) :
  let r := test_database db getenv in
  collections r
  = match db with
    | Some h =>
        match list_collection_names h with
        | Returns names => take 10 names
        | Raises _ => []
        end
    | None => []
    end
  /\ (length (collections r) <= 10)%nat
  /\ (connection_status r = "Connected" <-> db <> None)
  /\ (forall h e,
      db = Some h -> list_collection_names h = Raises e ->
      exists shown rest,
        database r = "⚠️  Connected but Error: " +:+ shown
        /\ e = shown +:+ rest
        /\ starts_char rest = true
        /\ char_count shown = Nat.min 50 (char_count e)
        /\ ((char_count e <= 50)%nat -> shown = e)).
Proof.
  intros r. unfold r, test_database.
  destruct db as [h|];
    [destruct (list_collection_names h) as [names|e] eqn:El|]; cbn.
  - rewrite length_take. repeat split; try lia; try discriminate.
    intros h' e [= <-] He. congruence.
  - repeat split; try lia; try discriminate.
    intros h' e' [= <-] He. rewrite El in He. injection He as <-.
    destruct (slice_to_split 50 e) as (rest & E & Hr).
    exists (slice_to 50 e), rest.
    split; [reflexivity|]. split; [exact E|]. split; [exact Hr|].
    split; [apply char_count_slice_to|apply slice_to_all].
  - repeat split; try lia; try discriminate; try congruence.
Qed.

Lemma test_database_collections_witness :
  exists shown rest,
    database
      (test_database
         (Some {| name := Some "isherwood";
                  list_collection_names :=
                    Raises "connexion refusée par le serveur de base de données après trois essais" |})
         (fun _ => None))
    = "⚠️  Connected but Error: " +:+ shown
    /\ "connexion refusée par le serveur de base de données après trois essais"
       = shown +:+ rest
    /\ starts_char rest = true
    /\ char_count shown
       = Nat.min 50
           (char_count "connexion refusée par le serveur de base de données après trois essais")
    /\ ((char_count "connexion refusée par le serveur de base de données après trois essais"
         <= 50)%nat ->
        shown
        = "connexion refusée par le serveur de base de données après trois essais").
Proof.
  apply (proj2 (proj2 (proj2 (test_database_collections
    (Some {| name := Some "isherwood";
             list_collection_names :=
               Raises "connexion refusée par le serveur de base de données après trois essais" |})
    (fun _ => None))))
    {| name := Some "isherwood";
       list_collection_names :=
         Raises "connexion refusée par le serveur de base de données après trois essais" |}
    "connexion refusée par le serveur de base de données après trois essais");
    reflexivity.
Defined.

(** The slice counts characters, not bytes: of a message of seventy
    characters, three of them of two bytes, the fifty shown hold two of
    these and take fifty-two bytes. *)
Example test_database_accents :
  database
    (test_database
       (Some {| name := Some "isherwood";
                list_collection_names :=
                  Raises "connexion refusée par le serveur de base de données après trois essais" |})
       (fun _ => None))
  = "⚠️  Connected but Error: connexion refusée par le serveur de base de donnée"
  /\ char_count "connexion refusée par le serveur de base de données après trois essais" = 70%nat
  /\ String.length "connexion refusée par le serveur de base de donnée" = 52%nat.
Proof. repeat split. Qed.

End DiagnosticEndpoint.
